(** * passport-google-oidc-token: the strategy of [src/index.ts]

    A shallow embedding of [GoogleOIDCTokenStrategy]: the token lookup,
    the profile mapper, the completion callback and [authenticate], with
    the properties of the specification stated over them. *)

From Stdlib Require Import String List Bool ZArith Lia.
Import ListNotations.
Open Scope string_scope.
Open Scope list_scope.

Set Warnings "-register-all".

(** ** JavaScript values *)

(** The values the strategy handles: request containers, claims, users,
    infos and error causes.  Numbers are the integers; an object is the
    list of its own data properties; [VError m] is [new Error(m)]. *)
Inductive value : Type :=
| VUndefined
| VNull
| VBool (b : bool)
| VNum (n : Z)
| VStr (s : string)
| VArr (items : list value)
| VObj (props : list (string * value))
| VError (message : string).

(** ToBoolean: [undefined], [null], [false], [0] and [''] are falsy,
    every other value is truthy. *)
Definition truthy (v : value) : bool :=
  match v with
  | VUndefined | VNull => false
  | VBool b => b
  | VNum n => negb (n =? 0)%Z
  | VStr s => negb (s =? "")
  | VArr _ | VObj _ | VError _ => true
  end.

(** [a || b] on values. *)
Definition or_else (a b : value) : value := if truthy a then a else b.

(** How a synchronous evaluation ends: with a value or with an exception. *)
Inductive completion (A : Type) : Type :=
| Normal (a : A)
| Throw (e : value).
Arguments Normal {A} a.
Arguments Throw {A} e.

Definition cbind {A B} (c : completion A) (k : A -> completion B) : completion B :=
  match c with
  | Normal a => k a
  | Throw e => Throw e
  end.

Declare Scope completion_scope.
Delimit Scope completion_scope with completion.
Notation "'let?' x ':=' c 'in' k" := (cbind c (fun x => k))
  (at level 10, x name, c at level 100, k at level 200)
  : completion_scope.

Fixpoint assoc (k : string) (props : list (string * value)) : option value :=
  match props with
  | [] => None
  | (k', v) :: rest => if k' =? k then Some v else assoc k rest
  end.

(** The exception of a property read on [undefined] or [null]. *)
Definition TypeError (k : string) : value :=
  VError ("Cannot read properties of undefined (reading '" ++ k ++ "')")%string.

(** [o[k]]: an own property of an object, the [length] of a string or
    an array, the [message] and [name] of an error, [undefined] for
    another name, and a TypeError on [undefined] and [null].  The
    inherited methods ([toString], ...) are left out: no name the
    strategy reads is one of them. *)
Definition get (o : value) (k : string) : completion value :=
  match o with
  | VUndefined | VNull => Throw (TypeError k)
  | VObj props =>
      match assoc k props with
      | Some v => Normal v
      | None => Normal VUndefined
      end
  | VStr s =>
      if k =? "length" then Normal (VNum (Z.of_nat (String.length s)))
      else Normal VUndefined
  | VArr items =>
      if k =? "length" then Normal (VNum (Z.of_nat (List.length items)))
      else Normal VUndefined
  | VError message =>
      if k =? "message" then Normal (VStr message)
      else if k =? "name" then Normal (VStr "Error")
      else Normal VUndefined
  | VBool _ | VNum _ => Normal VUndefined
  end.

(** ** The request *)

(** The three properties of the request that the strategy reads.  A read
    of a data property yields its value; a read of an accessor property
    runs a getter, which may throw (Express 5 defines [query] through a
    getter that runs the application's query parser). *)
Record Request : Type := {
  body : completion value;
  query : completion value;
  headers : completion value
}.

(** [c && c[field]], for the container read from one request property. *)
Definition guarded_get (container : completion value) (field : string)
  : completion value :=
  (let? c := container in
   if truthy c then get c field else Normal c)%completion.

(** [a || b] where [b] is evaluated only when [a] is falsy. *)
Definition lazy_or (a : completion value) (b : completion value)
  : completion value :=
  (let? x := a in if truthy x then Normal x else b)%completion.

(** [lookup], index.ts 171-177. *)
Definition lookup (req : Request) (field : string) : completion value :=
  lazy_or (guarded_get (body req) field)
    (lazy_or (guarded_get (query req) field)
             (guarded_get (headers req) field)).

(** ** Profiles *)

Record ProfileName : Type := {
  familyName : value;
  givenName : value
}.

Record Email : Type := {
  email_value : value;
  verified : value
}.

Record Photo : Type := {
  photo_value : value
}.

(** The [Profile] interface, index.ts 9-25.  [name] is [None] for
    [undefined]. *)
Record Profile : Type := {
  provider : string;
  id : value;
  displayName : value;
  name : option ProfileName;
  photos : list Photo;
  emails : list Email;
  _json : value
}.

Definition set_name (p : Profile) (n : ProfileName) : Profile :=
  {| provider := provider p; id := id p; displayName := displayName p;
     name := Some n; photos := photos p; emails := emails p;
     _json := _json p |}.

Definition set_emails (p : Profile) (es : list Email) : Profile :=
  {| provider := provider p; id := id p; displayName := displayName p;
     name := name p; photos := photos p; emails := es;
     _json := _json p |}.

Definition set_photos (p : Profile) (ps : list Photo) : Profile :=
  {| provider := provider p; id := id p; displayName := displayName p;
     name := name p; photos := ps; emails := emails p;
     _json := _json p |}.

(** [parseProfile], index.ts 197-233.  The casts [as string] and
    [as boolean] are erased at run time: the claims are copied as they
    are. *)
Definition parseProfile (payload : value) : completion Profile :=
  (let? sub := get payload "sub" in
   let? name_claim := get payload "name" in
   let profile :=
     {| provider := "google";
        id := sub;
        displayName := or_else name_claim (VStr "");
        name := None;
        photos := [];
        emails := [];
        _json := payload |} in
   let? family_name := get payload "family_name" in
   let? given_name := get payload "given_name" in
   let profile :=
     if truthy (or_else family_name given_name)
     then set_name profile
            {| familyName := family_name; givenName := given_name |}
     else profile in
   let? email := get payload "email" in
   let? email_verified := get payload "email_verified" in
   let profile :=
     if truthy email
     then set_emails profile
            [ {| email_value := email; verified := email_verified |} ]
     else profile in
   let? picture := get payload "picture" in
   let profile :=
     if truthy picture
     then set_photos profile [ {| photo_value := picture |} ]
     else profile in
   Normal profile)%completion.

(** ** The asynchronous part *)

(** A positional argument of the verification function. *)
Inductive arg : Type :=
| AReq (req : Request)
| AVal (v : value)
| AProfile (profile : Profile)
| ADone.

(** What the host framework and the application observe of a run: the
    invocations of the three outcome handlers, which the framework
    installs on the instance as [error], [fail] and [success], and the
    invocation of the verification function with its arguments
    ([ADone] stands for the completion callback). *)
Inductive event : Type :=
| Error_ (err : value)
| Fail (info : value)
| Success (user info : value)
| Verify (args : list arg).

(** A call [done(error, user, info)]. *)
Record done_call : Type := {
  dc_error : value;
  dc_user : value;
  dc_info : value
}.

(** The state of a run: the events so far, and the calls of the
    completion callback that the verification function has left to later
    turns of the event loop. *)
Record state : Type := {
  trace : list event;
  deferred : list done_call
}.

Definition initial : state := {| trace := []; deferred := [] |}.

(** A computation of the [async] function: it ends normally, throws, or
    ([None]) stays suspended at an [await] that never resumes. *)
Definition M (A : Type) : Type := state -> option (completion A) * state.

Definition ret {A} (a : A) : M A := fun s => (Some (Normal a), s).

Definition throw {A} (e : value) : M A := fun s => (Some (Throw e), s).

Definition bind {A B} (m : M A) (k : A -> M B) : M B :=
  fun s =>
    match m s with
    | (Some (Normal a), s') => k a s'
    | (Some (Throw e), s') => (Some (Throw e), s')
    | (None, s') => (None, s')
    end.

(** [try { m } catch (err) { h err }]. *)
Definition try_catch {A} (m : M A) (h : value -> M A) : M A :=
  fun s =>
    match m s with
    | (Some (Throw e), s') => h e s'
    | r => r
    end.

Definition lift {A} (c : completion A) : M A := fun s => (Some c, s).

Definition emit (e : event) : M value :=
  fun s => (Some (Normal VUndefined),
            {| trace := trace s ++ [e]; deferred := deferred s |}).

Definition defer (cs : list done_call) : M value :=
  fun s => (Some (Normal VUndefined),
            {| trace := trace s; deferred := deferred s ++ cs |}).

Declare Scope async_scope.
Delimit Scope async_scope with async.
Notation "x <- m ;; k" := (bind m (fun x => k))
  (at level 61, m at next level, right associativity) : async_scope.
Notation "m ;; k" := (bind m (fun _ => k))
  (at level 61, right associativity) : async_scope.

Definition DoneCallback : Type := value -> value -> value -> M value.

Fixpoint for_each (cs : list done_call) (done : DoneCallback) : M value :=
  match cs with
  | [] => ret VUndefined
  | c :: rest =>
      (done (dc_error c) (dc_user c) (dc_info c) ;; for_each rest done)%async
  end.

(** ** The verification engine and the verification function *)

Record LoginTicket : Type := {
  getPayload : value
}.

(** The promise returned by [verifyIdToken] resolves with a ticket,
    rejects with a cause (a synchronous throw of the call is caught by
    the same [try]), or never settles. *)
Inductive engine_result : Type :=
| Resolves (ticket : LoginTicket)
| Rejects (cause : value)
| Pending.

(** [OAuth2Client]: the engine, seen through
    [verifyIdToken({ idToken, audience })]. *)
Record OAuth2Client : Type := {
  verifyIdToken : value -> string -> engine_result
}.

Definition await (r : engine_result) : M LoginTicket :=
  match r with
  | Resolves ticket => ret ticket
  | Rejects cause => throw cause
  | Pending => fun s => (None, s)
  end.

Inductive verify_end : Type :=
| Returns
| Throws (e : value).

(** What one call of the application's verification function does with
    the completion callback: the calls it makes before it ends, how it
    ends, and the calls it leaves to later turns of the event loop. *)
Record verify_run : Type := {
  during : list done_call;
  ending : verify_end;
  afterwards : list done_call
}.

Definition VerifyFunction : Type := list arg -> verify_run.

Definition call (f : VerifyFunction) (args : list arg) (done : DoneCallback)
  : M value :=
  (emit (Verify args) ;;
   for_each (during (f args)) done ;;
   defer (afterwards (f args)) ;;
   match ending (f args) with
   | Returns => ret VUndefined
   | Throws e => throw e
   end)%async.

(** ** The strategy *)

Record StrategyOptions : Type := {
  clientID : string;
  passReqToCallback : option value
}.

(** The fields of the class, index.ts 78-82; [strategy_name] is its
    field [name]. *)
Record GoogleOIDCTokenStrategy : Type := {
  client : OAuth2Client;
  clientId : string;
  strategy_name : string;
  _verify : VerifyFunction;
  _passReqToCallback : value
}.

(** [this.error], [this.fail] and [this.success]: the handlers of the
    host framework; an invocation is recorded and returns. *)
Definition this_error (err : value) : M value := emit (Error_ err).
Definition this_fail (info : value) : M value := emit (Fail info).
Definition this_success (user info : value) : M value :=
  emit (Success user info).

(** [verifiedFunction], index.ts 126-136. *)
Definition verifiedFunction : DoneCallback :=
  fun error user info =>
    if truthy error then this_error error
    else if negb (truthy user) then this_fail info
    else this_success user info.

Definition accessToken : value := VStr "123".
Definition refreshToken : value := VStr "234".

(** [authenticate], index.ts 112-162. *)
Definition authenticate (self : GoogleOIDCTokenStrategy) (req : Request)
  : M value :=
  (idToken <- lift (lookup req "id_token") ;;
   try_catch
     (ticket <- await (verifyIdToken (client self) idToken (clientId self)) ;;
      let payload := getPayload ticket in
      if negb (truthy payload) then throw (VError "No payload returned")
      else
        profile <- lift (parseProfile payload) ;;
        if truthy (_passReqToCallback self)
        then call (_verify self)
               [AReq req; AVal accessToken; AVal refreshToken;
                AProfile profile; ADone]
               verifiedFunction
        else call (_verify self)
               [AVal accessToken; AVal refreshToken;
                AProfile profile; ADone]
               verifiedFunction)
     (fun err => this_error err))%async.

(** The state of the promise that [authenticate] returns. *)
Inductive settlement : Type :=
| Fulfilled
| Rejected (reason : value)
| Unsettled.

Definition settle {A} (r : option (completion A)) : settlement :=
  match r with
  | Some (Normal _) => Fulfilled
  | Some (Throw e) => Rejected e
  | None => Unsettled
  end.

(** The whole run of one call: [authenticate] itself, then the later
    turns of the event loop, in which the deferred calls of the
    completion callback take place. *)
Definition run (self : GoogleOIDCTokenStrategy) (req : Request)
  : settlement * list event :=
  let (r, s) := authenticate self req initial in
  let (_, s') := for_each (deferred s) verifiedFunction
                   {| trace := trace s; deferred := [] |} in
  (settle r, trace s').

(** The constructor, index.ts 93-106.  [new_OAuth2Client] is the
    constructor of the engine's client, given the client identifier. *)
Definition new_GoogleOIDCTokenStrategy
    (new_OAuth2Client : string -> OAuth2Client)
    (options : StrategyOptions) (verify : VerifyFunction)
  : GoogleOIDCTokenStrategy :=
  {| client := new_OAuth2Client (clientID options);
     clientId := clientID options;
     strategy_name := "google-oidc-token";
     _verify := verify;
     _passReqToCallback :=
       match passReqToCallback options with
       | Some v => v
       | None => VBool false
       end |}.

(** ** Vocabulary of the specification *)

(** The handler that one call of the completion callback reaches. *)
Definition outcome_of (c : done_call) : event :=
  if truthy (dc_error c) then Error_ (dc_error c)
  else if truthy (dc_user c) then Success (dc_user c) (dc_info c)
  else Fail (dc_info c).

Definition is_outcome (e : event) : bool :=
  match e with
  | Verify _ => false
  | _ => true
  end.

(** The invocations of the outcome handlers in a trace. *)
Definition outcomes (t : list event) : list event := filter is_outcome t.

(** The argument lists of the invocations of the verification function
    in a trace. *)
Fixpoint verify_calls (t : list event) : list (list arg) :=
  match t with
  | [] => []
  | Verify args :: rest => args :: verify_calls rest
  | _ :: rest => verify_calls rest
  end.

(** A claim is present in a payload when reading it yields a value other
    than [undefined], and absent when reading it yields [undefined]. *)
Definition present (payload : value) (claim : string) : Prop :=
  exists v, get payload claim = Normal v /\ v <> VUndefined.

Definition absent (payload : value) (claim : string) : Prop :=
  get payload claim = Normal VUndefined.

(** The value of a claim of a verified payload ([undefined] when the
    payload does not hold it). *)
Definition claim (payload : value) (k : string) : value :=
  match get payload k with
  | Normal v => v
  | Throw _ => VUndefined
  end.

(** The outcome of checking each location of the token, in the order
    body, query, headers. *)
Definition locations (req : Request) (field : string)
  : list (completion value) :=
  [ guarded_get (body req) field;
    guarded_get (query req) field;
    guarded_get (headers req) field ].

(** The first truthy value found by checking the locations in order, as
    the specification words it; [None] when no location yields one. *)
Fixpoint first_truthy (cs : list (completion value))
  : completion (option value) :=
  match cs with
  | [] => Normal None
  | Throw e :: _ => Throw e
  | Normal v :: rest =>
      if truthy v then Normal (Some v) else first_truthy rest
  end.

(** The engine fails with a cause: its promise rejects, or it resolves
    with a ticket that holds no payload. *)
Inductive engine_failure : engine_result -> value -> Prop :=
| failure_rejects cause :
    engine_failure (Rejects cause) cause
| failure_no_payload ticket :
    truthy (getPayload ticket) = false ->
    engine_failure (Resolves ticket) (VError "No payload returned").

(** The verification function calls the completion callback once and
    returns, or throws without having called it. *)
Definition one_completion (r : verify_run) : Prop :=
  length (during r) + length (afterwards r)
  + match ending r with Returns => 0 | Throws _ => 1 end = 1.

(** The handler invocation that the [catch] of [authenticate] adds for
    the way the verification function ends. *)
Definition caught (e : verify_end) : list event :=
  match e with
  | Returns => []
  | Throws err => [Error_ err]
  end.

(** The arguments [authenticate] passes to the verification function. *)
Definition verify_args (self : GoogleOIDCTokenStrategy) (req : Request)
    (profile : Profile) : list arg :=
  (if truthy (_passReqToCallback self) then [AReq req] else [])
  ++ [AVal accessToken; AVal refreshToken; AProfile profile; ADone].

(** ** Sample inputs *)

Module Samples.

Definition plain_request : Request :=
  {| body := Normal (VObj [("id_token", VStr "eyJ.body")]);
     query := Normal (VObj [("id_token", VStr "eyJ.query")]);
     headers := Normal (VObj [("id_token", VStr "eyJ.header")]) |}.

(** A request without a parsed body whose [query] getter throws. *)
Definition throwing_request : Request :=
  {| body := Normal VUndefined;
     query := Throw (VError "query parser failed");
     headers := Normal (VObj []) |}.

Definition full_payload : value :=
  VObj [("sub", VStr "1001"); ("name", VStr "Ada Lovelace");
        ("family_name", VStr "Lovelace"); ("given_name", VStr "Ada");
        ("email", VStr "ada@example.org"); ("email_verified", VBool true);
        ("picture", VStr "https://example.org/ada.png")].

Definition unverified_payload : value :=
  VObj [("sub", VStr "1002"); ("email", VStr "bob@example.org")].

Definition empty_email_payload : value :=
  VObj [("sub", VStr "1003"); ("email", VStr "")].

Definition empty_email_named_payload : value :=
  VObj [("sub", VStr "1004"); ("name", VStr "Carol");
        ("email", VStr "")].

Definition empty_family_payload : value :=
  VObj [("sub", VStr "1005"); ("family_name", VStr "")].

(** An engine that accepts every token with [payload]. *)
Definition accepting (payload : value) : OAuth2Client :=
  {| verifyIdToken := fun _ _ => Resolves {| getPayload := payload |} |}.

Definition rejecting (cause : value) : OAuth2Client :=
  {| verifyIdToken := fun _ _ => Rejects cause |}.

Definition user : value := VObj [("id", VNum 1)].

(** [(accessToken, refreshToken, profile, cb) => cb(null, user)] *)
Definition accept_user : VerifyFunction :=
  fun _ =>
    {| during := [ {| dc_error := VNull; dc_user := user;
                      dc_info := VUndefined |} ];
       ending := Returns;
       afterwards := [] |}.

(** A verification function that reports the user and then throws. *)
Definition accept_then_throw : VerifyFunction :=
  fun _ =>
    {| during := [ {| dc_error := VNull; dc_user := user;
                      dc_info := VUndefined |} ];
       ending := Throws (VError "audit log unavailable");
       afterwards := [] |}.

Definition strategy (engine : OAuth2Client) (verify : VerifyFunction)
    (pass_req : option value) : GoogleOIDCTokenStrategy :=
  new_GoogleOIDCTokenStrategy (fun _ => engine)
    {| clientID := "123456789"; passReqToCallback := pass_req |} verify.

End Samples.

(** * Properties *)

(** ** Traces *)

Lemma verifiedFunction_step error user info s :
  verifiedFunction error user info s =
  (Some (Normal VUndefined),
   {| trace := trace s
               ++ [outcome_of {| dc_error := error; dc_user := user;
                                 dc_info := info |}];
      deferred := deferred s |}).
Proof.
  unfold verifiedFunction, outcome_of, this_error, this_fail, this_success,
    emit; simpl.
  destruct (truthy error); [reflexivity|].
  destruct (truthy user); reflexivity.
Qed.

Lemma for_each_verifiedFunction cs : forall s,
  for_each cs verifiedFunction s =
  (Some (Normal VUndefined),
   {| trace := trace s ++ map outcome_of cs; deferred := deferred s |}).
Proof.
  induction cs as [|c cs IH]; intros s; simpl.
  - unfold ret. rewrite app_nil_r. destruct s; reflexivity.
  - unfold bind. rewrite verifiedFunction_step. rewrite IH. simpl.
    rewrite <- app_assoc. destruct c; reflexivity.
Qed.

Lemma is_outcome_outcome_of c : is_outcome (outcome_of c) = true.
Proof.
  unfold outcome_of. destruct (truthy (dc_error c)); [reflexivity|].
  destruct (truthy (dc_user c)); reflexivity.
Qed.

Lemma outcomes_app t u : outcomes (t ++ u) = outcomes t ++ outcomes u.
Proof. apply filter_app. Qed.

Lemma outcomes_map_outcome_of cs :
  outcomes (map outcome_of cs) = map outcome_of cs.
Proof.
  unfold outcomes. induction cs as [|c cs IH]; simpl; [reflexivity|].
  now rewrite is_outcome_outcome_of, IH.
Qed.

Lemma outcomes_caught e : outcomes (caught e) = caught e.
Proof. destruct e; reflexivity. Qed.

Lemma outcomes_Verify args t : outcomes (Verify args :: t) = outcomes t.
Proof. reflexivity. Qed.

Lemma verify_calls_app t u :
  verify_calls (t ++ u) = verify_calls t ++ verify_calls u.
Proof.
  induction t as [|e t IH]; simpl; [reflexivity|].
  destruct e; simpl; now rewrite IH.
Qed.

Lemma verify_calls_map_outcome_of cs : verify_calls (map outcome_of cs) = [].
Proof.
  induction cs as [|c cs IH]; simpl; [reflexivity|].
  unfold outcome_of at 1.
  destruct (truthy (dc_error c)); [exact IH|].
  destruct (truthy (dc_user c)); exact IH.
Qed.

Lemma verify_calls_caught e : verify_calls (caught e) = [].
Proof. destruct e; reflexivity. Qed.

Lemma verify_calls_Verify args t :
  verify_calls (Verify args :: t) = args :: verify_calls t.
Proof. reflexivity. Qed.

Create Rewrite HintDb traces.
#[local] Hint Rewrite
  outcomes_app outcomes_map_outcome_of outcomes_caught outcomes_Verify
  verify_calls_app verify_calls_map_outcome_of verify_calls_caught
  verify_calls_Verify app_nil_r : traces.

Lemma length_one {A} (l : list A) : length l = 1 -> exists x, l = [x].
Proof.
  destruct l as [|x [|y l]]; simpl; try discriminate. intros _. now exists x.
Qed.

(** ** Reading claims *)

Lemma get_truthy o k : truthy o = true -> get o k = Normal (claim o k).
Proof.
  unfold claim. destruct o; simpl; try discriminate; intros _;
    repeat match goal with
           | |- context [if ?b then _ else _] => destruct b
           | |- context [match assoc ?k ?ps with _ => _ end] =>
               destruct (assoc k ps)
           end; reflexivity.
Qed.

Lemma absent_claim payload k : absent payload k -> claim payload k = VUndefined.
Proof. unfold absent, claim. now intros ->. Qed.

(** The profile of a verified payload, field by field. *)
Lemma parseProfile_truthy payload :
  truthy payload = true ->
  exists profile,
    parseProfile payload = Normal profile
    /\ provider profile = "google"
    /\ id profile = claim payload "sub"
    /\ displayName profile = or_else (claim payload "name") (VStr "")
    /\ name profile =
         (if truthy (or_else (claim payload "family_name")
                             (claim payload "given_name"))
          then Some {| familyName := claim payload "family_name";
                       givenName := claim payload "given_name" |}
          else None)
    /\ emails profile =
         (if truthy (claim payload "email")
          then [ {| email_value := claim payload "email";
                    verified := claim payload "email_verified" |} ]
          else [])
    /\ photos profile =
         (if truthy (claim payload "picture")
          then [ {| photo_value := claim payload "picture" |} ]
          else [])
    /\ _json profile = payload.
Proof.
  intros Hp. unfold parseProfile.
  rewrite !(get_truthy payload _ Hp). cbn [cbind].
  eexists. split; [reflexivity|].
  destruct (truthy (or_else (claim payload "family_name")
                            (claim payload "given_name")));
    destruct (truthy (claim payload "email"));
    destruct (truthy (claim payload "picture"));
    cbn; repeat split; reflexivity.
Qed.

Lemma parseProfile_total payload :
  truthy payload = true -> exists profile, parseProfile payload = Normal profile.
Proof.
  intros Hp. destruct (parseProfile_truthy payload Hp) as (p & H & _).
  now exists p.
Qed.

(** A payload that is [undefined] or [null] makes the mapper throw; the
    guard of [authenticate] keeps such a payload away from it. *)
Lemma parseProfile_undefined : exists e, parseProfile VUndefined = Throw e.
Proof. eexists. reflexivity. Qed.

(** ** The completion callback *)

(** C1. Every invocation of the completion callback with
    [(error, user, info)] returns after invoking exactly one handler:
    Error with [error] when [error] is truthy; Fail with [info] when
    [error] and [user] are falsy; Success with [user] and [info] when
    [error] is falsy and [user] truthy. *)
Theorem verifiedFunction_dispatch error user info s :
  let r := verifiedFunction error user info s in
  fst r = Some (Normal VUndefined)
  /\ deferred (snd r) = deferred s
  /\ (truthy error = true ->
      trace (snd r) = trace s ++ [Error_ error])
  /\ (truthy error = false -> truthy user = false ->
      trace (snd r) = trace s ++ [Fail info])
  /\ (truthy error = false -> truthy user = true ->
      trace (snd r) = trace s ++ [Success user info]).
Proof.
  cbv zeta. rewrite verifiedFunction_step. unfold outcome_of. simpl.
  repeat split.
  - intros ->. reflexivity.
  - intros -> ->. reflexivity.
  - intros -> ->. reflexivity.
Qed.

Lemma verifiedFunction_dispatch_witness :
  trace (snd (verifiedFunction VNull (VBool false)
                (VObj [("message", VStr "no such user")]) initial))
  = [Fail (VObj [("message", VStr "no such user")])].
Proof.
  exact (proj1 (proj2 (proj2 (proj2
           (verifiedFunction_dispatch VNull (VBool false)
              (VObj [("message", VStr "no such user")]) initial))))
         eq_refl eq_refl).
Defined.

(** ** Runs of [authenticate] *)

Lemma call_verifiedFunction f args s :
  call f args verifiedFunction s =
  (Some match ending (f args) with
        | Returns => Normal VUndefined
        | Throws e => Throw e
        end,
   {| trace := trace s ++ Verify args :: map outcome_of (during (f args));
      deferred := deferred s ++ afterwards (f args) |}).
Proof.
  unfold call, bind, emit, defer. rewrite for_each_verifiedFunction. simpl.
  rewrite <- app_assoc. simpl.
  destruct (ending (f args)); reflexivity.
Qed.

Lemma authenticate_calls_verify self req profile :
  (if truthy (_passReqToCallback self)
   then call (_verify self)
          [AReq req; AVal accessToken; AVal refreshToken;
           AProfile profile; ADone]
          verifiedFunction
   else call (_verify self)
          [AVal accessToken; AVal refreshToken; AProfile profile; ADone]
          verifiedFunction)
  = call (_verify self) (verify_args self req profile) verifiedFunction.
Proof.
  unfold verify_args. destruct (truthy (_passReqToCallback self)); reflexivity.
Qed.

(** A throw of the token lookup leaves [authenticate] before the [try]:
    the promise rejects and no handler runs. *)
Lemma run_lookup_throws self req e :
  lookup req "id_token" = Throw e ->
  run self req = (Rejected e, []).
Proof.
  intros H. unfold run, authenticate, bind, lift. rewrite H. reflexivity.
Qed.

Section Run.

Variable self : GoogleOIDCTokenStrategy.
Variable req : Request.
Variable idToken : value.

Hypothesis lookup_returns : lookup req "id_token" = Normal idToken.

Local Notation "'engine'" :=
  (verifyIdToken (client self) idToken (clientId self)) (only parsing).

Lemma run_engine_pending :
  engine = Pending -> run self req = (Unsettled, []).
Proof.
  intros He. unfold run, authenticate, bind, lift, try_catch.
  rewrite lookup_returns, He. reflexivity.
Qed.

Lemma run_engine_failure cause :
  engine_failure engine cause -> run self req = (Fulfilled, [Error_ cause]).
Proof.
  intros He. unfold run, authenticate, bind, lift, try_catch.
  rewrite lookup_returns. inversion He as [c Hc | ticket Hf Hc]; subst.
  - reflexivity.
  - simpl. rewrite Hf. reflexivity.
Qed.

(** The run of a call whose token the engine accepts: the verification
    function is called once; every call of the completion callback
    reaches one handler; a throw of the verification function reaches
    the Error handler. *)
Lemma run_verified ticket profile :
  engine = Resolves ticket ->
  truthy (getPayload ticket) = true ->
  parseProfile (getPayload ticket) = Normal profile ->
  let r := _verify self (verify_args self req profile) in
  run self req =
  (Fulfilled,
   Verify (verify_args self req profile)
   :: map outcome_of (during r) ++ caught (ending r)
   ++ map outcome_of (afterwards r)).
Proof.
  intros He Hp Hprof r. unfold run, authenticate.
  unfold bind at 1. unfold lift at 1. rewrite lookup_returns.
  unfold try_catch, bind at 1. rewrite He. simpl await. unfold ret at 1.
  rewrite Hp.
  unfold bind at 1. unfold lift at 1. rewrite Hprof.
  rewrite authenticate_calls_verify. cbn [negb].
  rewrite call_verifiedFunction. fold r.
  simpl trace. simpl deferred.
  destruct (ending r) as [|e].
  - rewrite for_each_verifiedFunction. simpl. reflexivity.
  - unfold this_error, emit. simpl.
    rewrite for_each_verifiedFunction. simpl.
    rewrite <- app_assoc. reflexivity.
Qed.

(** The runs of a call whose engine settles: an engine failure, or a
    verified payload handed to the verification function. *)
Inductive settled_run : settlement * list event -> Prop :=
| settled_failure cause :
    engine_failure engine cause ->
    settled_run (Fulfilled, [Error_ cause])
| settled_verified ticket profile :
    engine = Resolves ticket ->
    truthy (getPayload ticket) = true ->
    parseProfile (getPayload ticket) = Normal profile ->
    let r := _verify self (verify_args self req profile) in
    settled_run
      (Fulfilled,
       Verify (verify_args self req profile)
       :: map outcome_of (during r) ++ caught (ending r)
       ++ map outcome_of (afterwards r)).

Lemma run_settled : engine <> Pending -> settled_run (run self req).
Proof.
  intros Hn. destruct engine as [ticket|cause|] eqn:He; [| |congruence].
  - destruct (truthy (getPayload ticket)) eqn:Hp.
    + destruct (parseProfile_total _ Hp) as [profile Hprof].
      rewrite (run_verified ticket profile He Hp Hprof).
      exact (settled_verified ticket profile He Hp Hprof).
    + assert (Hf : engine_failure engine (VError "No payload returned"))
        by (rewrite He; now constructor).
      rewrite (run_engine_failure _ Hf). exact (settled_failure _ Hf).
  - assert (Hf : engine_failure engine cause) by (rewrite He; constructor).
    rewrite (run_engine_failure _ Hf). exact (settled_failure _ Hf).
Qed.

(** After a successful lookup nothing leaves [authenticate] as a
    rejection: the promise is fulfilled whenever the engine settles. *)
Lemma run_fulfilled_after_lookup :
  engine <> Pending -> fst (run self req) = Fulfilled.
Proof.
  intros Hn. destruct (run_settled Hn); reflexivity.
Qed.

(** A throw of the verification function reaches the Error handler. *)
Lemma run_verify_throws ticket profile e :
  engine = Resolves ticket ->
  truthy (getPayload ticket) = true ->
  parseProfile (getPayload ticket) = Normal profile ->
  ending (_verify self (verify_args self req profile)) = Throws e ->
  fst (run self req) = Fulfilled /\ In (Error_ e) (snd (run self req)).
Proof.
  intros He Hp Hprof Hend.
  rewrite (run_verified ticket profile He Hp Hprof).
  cbv zeta. rewrite Hend. split; [reflexivity|]. simpl. right.
  apply in_or_app. right. now left.
Qed.

(** C2. When the engine fails (its promise rejects, or it resolves
    without a payload), the run of [authenticate] consists of one
    invocation of the Error handler with the failure cause: Success and
    Fail are not invoked and the verification function is not called. *)
Theorem authenticate_engine_failure cause :
  engine_failure engine cause ->
  let t := snd (run self req) in
  t = [Error_ cause]
  /\ verify_calls t = []
  /\ (forall user info, ~ In (Success user info) t)
  /\ (forall info, ~ In (Fail info) t).
Proof.
  intros He. cbv zeta. rewrite (run_engine_failure cause He). simpl.
  repeat split.
  - intros user info [H|[]]. discriminate.
  - intros info [H|[]]. discriminate.
Qed.

(** C3, amended. When the token lookup returns and the engine settles,
    exactly one outcome handler is invoked, exactly once, over the whole
    run, provided the verification function, if it is reached, calls
    the completion callback once and returns, or throws without having
    called it. *)
Theorem authenticate_one_outcome :
  engine <> Pending ->
  (forall ticket profile,
      engine = Resolves ticket ->
      parseProfile (getPayload ticket) = Normal profile ->
      one_completion (_verify self (verify_args self req profile))) ->
  exists h, outcomes (snd (run self req)) = [h].
Proof.
  intros Hn Hv.
  destruct (run_settled Hn) as [cause Hf | ticket profile He Hp Hprof r].
  - now exists (Error_ cause).
  - apply length_one. specialize (Hv ticket profile He Hprof).
    unfold one_completion in Hv. fold r in Hv.
    cbn [snd]. autorewrite with traces.
    rewrite !length_app, !length_map.
    destruct (ending r); simpl in *; lia.
Qed.

(** C9. After a successful verification the verification function
    receives the access token ['123'] and the refresh token ['234'],
    whatever the strategy, the request, the token and the claims are;
    they are followed by the profile and the completion callback and
    preceded by nothing or by the request. *)
Theorem verify_receives_fixed_tokens ticket :
  engine = Resolves ticket ->
  truthy (getPayload ticket) = true ->
  exists prefix profile,
    verify_calls (snd (run self req)) =
    [prefix ++ [AVal (VStr "123"); AVal (VStr "234"); AProfile profile; ADone]]
    /\ (prefix = [] \/ prefix = [AReq req]).
Proof.
  intros He Hp.
  destruct (parseProfile_total _ Hp) as [profile Hprof].
  exists (if truthy (_passReqToCallback self) then [AReq req] else []), profile.
  rewrite (run_verified ticket profile He Hp Hprof).
  cbv zeta. cbn [snd]. autorewrite with traces. split.
  - reflexivity.
  - destruct (truthy (_passReqToCallback self)); auto.
Qed.

End Run.

Lemma authenticate_engine_failure_witness :
  snd (run (Samples.strategy (Samples.rejecting (VError "Token used too late"))
              Samples.accept_user None)
           Samples.plain_request)
  = [Error_ (VError "Token used too late")].
Proof.
  exact (proj1
           (authenticate_engine_failure
              (Samples.strategy (Samples.rejecting (VError "Token used too late"))
                 Samples.accept_user None)
              Samples.plain_request (VStr "eyJ.body") eq_refl
              (VError "Token used too late")
              (failure_rejects (VError "Token used too late")))).
Defined.

(** C3, as stated, fails: with a verification function that reports the
    user and then throws, both Success and Error are invoked. *)
Lemma authenticate_two_outcomes :
  let t := snd (run (Samples.strategy (Samples.accepting Samples.full_payload)
                       Samples.accept_then_throw None)
                    Samples.plain_request) in
  outcomes t = [Success Samples.user VUndefined;
                Error_ (VError "audit log unavailable")]
  /\ ~ (exists h, outcomes t = [h]).
Proof.
  cbv zeta. split; [reflexivity|]. intros [h H]. vm_compute in H.
  discriminate H.
Qed.

Lemma authenticate_one_outcome_witness :
  exists h,
    outcomes (snd (run (Samples.strategy (Samples.accepting Samples.full_payload)
                          Samples.accept_user None)
                       Samples.plain_request)) = [h].
Proof.
  apply (authenticate_one_outcome
           (Samples.strategy (Samples.accepting Samples.full_payload)
              Samples.accept_user None)
           Samples.plain_request (VStr "eyJ.body")).
  - reflexivity.
  - discriminate.
  - intros ticket profile _ _. reflexivity.
Defined.

Lemma verify_receives_fixed_tokens_witness :
  exists prefix profile,
    verify_calls
      (snd (run (Samples.strategy (Samples.accepting Samples.unverified_payload)
                   Samples.accept_user None)
                Samples.plain_request)) =
    [prefix ++ [AVal (VStr "123"); AVal (VStr "234"); AProfile profile; ADone]]
    /\ (prefix = [] \/ prefix = [AReq Samples.plain_request]).
Proof.
  exact (verify_receives_fixed_tokens
           (Samples.strategy (Samples.accepting Samples.unverified_payload)
              Samples.accept_user None)
           Samples.plain_request (VStr "eyJ.body") eq_refl
           {| getPayload := Samples.unverified_payload |}
           eq_refl eq_refl).
Defined.

(** C4. The token lookup runs before the [try]: on a request whose
    [query] getter throws, the promise of [authenticate] rejects with
    the exception and the Error handler is not invoked. *)
Theorem authenticate_lookup_throw_escapes :
  lookup Samples.throwing_request "id_token"
  = Throw (VError "query parser failed")
  /\ run (Samples.strategy (Samples.accepting Samples.full_payload)
            Samples.accept_user None)
         Samples.throwing_request
     = (Rejected (VError "query parser failed"), []).
Proof. split; reflexivity. Qed.

(** C6. After a successful verification the verification function is
    called once: with the request, the access token, the refresh token,
    the profile and the completion callback when the strategy was
    constructed with [passReqToCallback: true]; without the request,
    starting at the access token, when the option is absent or
    [false]. *)
Theorem verify_receives_request
    new_OAuth2Client options verify req idToken ticket :
  let self := new_GoogleOIDCTokenStrategy new_OAuth2Client options verify in
  lookup req "id_token" = Normal idToken ->
  verifyIdToken (client self) idToken (clientId self) = Resolves ticket ->
  truthy (getPayload ticket) = true ->
  exists profile,
    parseProfile (getPayload ticket) = Normal profile
    /\ (passReqToCallback options = Some (VBool true) ->
        verify_calls (snd (run self req)) =
        [[AReq req; AVal accessToken; AVal refreshToken;
          AProfile profile; ADone]])
    /\ (passReqToCallback options = None
        \/ passReqToCallback options = Some (VBool false) ->
        verify_calls (snd (run self req)) =
        [[AVal accessToken; AVal refreshToken; AProfile profile; ADone]]).
Proof.
  intros self Hl He Hp.
  destruct (parseProfile_total _ Hp) as [profile Hprof].
  exists profile. split; [exact Hprof|].
  rewrite (run_verified self req idToken Hl ticket profile He Hp Hprof).
  cbv zeta. cbn [snd]. autorewrite with traces.
  unfold verify_args, self.
  cbn [_passReqToCallback new_GoogleOIDCTokenStrategy].
  split.
  - intros ->. reflexivity.
  - intros [-> | ->]; reflexivity.
Qed.

Lemma verify_receives_request_witness :
  exists profile,
    parseProfile Samples.full_payload = Normal profile
    /\ verify_calls
         (snd (run (Samples.strategy (Samples.accepting Samples.full_payload)
                      Samples.accept_user (Some (VBool true)))
                   Samples.plain_request))
       = [[AReq Samples.plain_request; AVal accessToken; AVal refreshToken;
           AProfile profile; ADone]].
Proof.
  destruct (verify_receives_request
              (fun _ => Samples.accepting Samples.full_payload)
              {| clientID := "123456789";
                 passReqToCallback := Some (VBool true) |}
              Samples.accept_user Samples.plain_request (VStr "eyJ.body")
              {| getPayload := Samples.full_payload |}
              eq_refl eq_refl eq_refl) as (profile & Hprof & Hwith & _).
  exists profile. split; [exact Hprof|]. exact (Hwith eq_refl).
Defined.

(** ** The token locator *)

(** C5. [lookup] returns the first truthy value found by checking the
    body, then the query, then the headers; when none is truthy its
    result is falsy (empty or undefined); a throw of a check that is
    reached is a throw of [lookup].  In particular a truthy value of
    the body is returned whatever the query and the headers hold. *)
Theorem lookup_first_truthy req field :
  match first_truthy (locations req field) with
  | Normal (Some v) => lookup req field = Normal v
  | Normal None => exists v, lookup req field = Normal v /\ truthy v = false
  | Throw e => lookup req field = Throw e
  end
  /\ (forall b, guarded_get (body req) field = Normal b ->
                truthy b = true -> lookup req field = Normal b).
Proof.
  unfold lookup, locations, lazy_or. cbn [first_truthy]. split.
  - destruct (guarded_get (body req) field) as [b|e]; cbn [cbind];
      [|reflexivity].
    destruct (truthy b); [reflexivity|].
    destruct (guarded_get (query req) field) as [q|e]; cbn [cbind];
      [|reflexivity].
    destruct (truthy q); [reflexivity|].
    destruct (guarded_get (headers req) field) as [h|e]; [|reflexivity].
    destruct (truthy h) eqn:Hh; [reflexivity|].
    exists h. now split.
  - intros b -> Hb. cbn [cbind]. now rewrite Hb.
Qed.

Lemma lookup_first_truthy_witness :
  lookup Samples.plain_request "id_token" = Normal (VStr "eyJ.body").
Proof.
  exact (proj2 (lookup_first_truthy Samples.plain_request "id_token")
           (VStr "eyJ.body") eq_refl eq_refl).
Defined.

(** ** The profile mapper *)

(** C7, as stated, fails: a payload whose email claim is present and
    empty gives a profile with no email entry. *)
Lemma parseProfile_empty_email :
  present Samples.empty_email_payload "email"
  /\ exists profile,
       parseProfile Samples.empty_email_payload = Normal profile
       /\ emails profile = [].
Proof.
  split.
  - exists (VStr ""). split; [reflexivity|discriminate].
  - eexists. split; reflexivity.
Qed.

(** C7, amended. For every verified payload: when the email claim is
    absent or falsy (the empty string), [emails] is the empty list;
    when it is truthy, [emails] is the one-element list of the email
    value with the [email_verified] claim as its verified flag. *)
Theorem parseProfile_emails payload :
  truthy payload = true ->
  exists profile,
    parseProfile payload = Normal profile
    /\ (absent payload "email" -> emails profile = [])
    /\ (truthy (claim payload "email") = false -> emails profile = [])
    /\ (truthy (claim payload "email") = true ->
        emails profile =
        [ {| email_value := claim payload "email";
             verified := claim payload "email_verified" |} ]).
Proof.
  intros Hp.
  destruct (parseProfile_truthy payload Hp)
    as (profile & Hprof & _ & _ & _ & _ & Hemails & _).
  exists profile. split; [exact Hprof|]. rewrite Hemails. repeat split.
  - intros Ha. now rewrite (absent_claim _ _ Ha).
  - now intros ->.
  - now intros ->.
Qed.

Lemma parseProfile_emails_witness :
  exists profile,
    parseProfile Samples.full_payload = Normal profile
    /\ emails profile =
       [ {| email_value := VStr "ada@example.org"; verified := VBool true |} ].
Proof.
  destruct (parseProfile_emails Samples.full_payload eq_refl)
    as (profile & Hprof & _ & _ & Hone).
  exists profile. split; [exact Hprof|]. exact (Hone eq_refl).
Defined.

(** C8, as stated, fails: a payload with exactly one of the two name
    claims present, and that one empty, gives a profile without
    [name]. *)
Lemma parseProfile_empty_family_name :
  present Samples.empty_family_payload "family_name"
  /\ absent Samples.empty_family_payload "given_name"
  /\ exists profile,
       parseProfile Samples.empty_family_payload = Normal profile
       /\ name profile = None.
Proof.
  split; [|split].
  - exists (VStr ""). split; [reflexivity|discriminate].
  - reflexivity.
  - eexists. split; reflexivity.
Qed.

(** C8, amended. For every verified payload: when at least one of the
    [family_name] and [given_name] claims is truthy, [name] is set with
    both halves copied from the claims, so with both populated when
    both are truthy and with the half of an absent claim undefined;
    when neither is truthy (absent or empty), [name] is unset. *)
Theorem parseProfile_name payload :
  truthy payload = true ->
  let family_name := claim payload "family_name" in
  let given_name := claim payload "given_name" in
  exists profile,
    parseProfile payload = Normal profile
    /\ (truthy family_name = true \/ truthy given_name = true ->
        name profile = Some {| familyName := family_name;
                               givenName := given_name |})
    /\ (truthy family_name = true -> absent payload "given_name" ->
        name profile = Some {| familyName := family_name;
                               givenName := VUndefined |})
    /\ (absent payload "family_name" -> truthy given_name = true ->
        name profile = Some {| familyName := VUndefined;
                               givenName := given_name |})
    /\ (truthy family_name = false -> truthy given_name = false ->
        name profile = None)
    /\ (absent payload "family_name" -> absent payload "given_name" ->
        name profile = None).
Proof.
  intros Hp family_name given_name.
  destruct (parseProfile_truthy payload Hp)
    as (profile & Hprof & _ & _ & _ & Hname & _).
  exists profile. split; [exact Hprof|].
  fold family_name given_name in Hname. rewrite Hname. unfold or_else.
  repeat split.
  - intros [Hf | Hg].
    + now rewrite Hf, Hf.
    + destruct (truthy family_name) eqn:Hf; [now rewrite Hf | now rewrite Hg].
  - intros Hf Ha. rewrite Hf, Hf. unfold given_name.
    now rewrite (absent_claim _ _ Ha).
  - intros Ha Hg. unfold family_name. rewrite (absent_claim _ _ Ha).
    cbn [truthy]. fold given_name. now rewrite Hg.
  - intros Hf Hg. now rewrite Hf, Hg.
  - intros Hf Hg. unfold family_name, given_name.
    now rewrite (absent_claim _ _ Hf), (absent_claim _ _ Hg).
Qed.

Lemma parseProfile_name_witness :
  exists profile,
    parseProfile Samples.full_payload = Normal profile
    /\ name profile = Some {| familyName := VStr "Lovelace";
                              givenName := VStr "Ada" |}.
Proof.
  destruct (parseProfile_name Samples.full_payload eq_refl)
    as (profile & Hprof & Hset & _).
  exists profile. split; [exact Hprof|]. exact (Hset (or_introl eq_refl)).
Defined.

(** C10, as stated, fails: with an email claim that is present and
    empty and no [email_verified] claim, the profile has no first email
    entry to carry a flag. *)
Lemma parseProfile_no_first_entry :
  present Samples.empty_email_named_payload "email"
  /\ absent Samples.empty_email_named_payload "email_verified"
  /\ exists profile,
       parseProfile Samples.empty_email_named_payload = Normal profile
       /\ nth_error (emails profile) 0 = None.
Proof.
  split; [|split].
  - exists (VStr ""). split; [reflexivity|discriminate].
  - reflexivity.
  - eexists. split; reflexivity.
Qed.

(** C10, amended. For every verified payload whose email claim is
    truthy and whose [email_verified] claim is absent, the first email
    entry has the flag [undefined], which is not [false]: the flag is
    copied from the claims as it is. *)
Theorem parseProfile_verified_undefined payload :
  truthy payload = true ->
  truthy (claim payload "email") = true ->
  absent payload "email_verified" ->
  exists profile entry,
    parseProfile payload = Normal profile
    /\ nth_error (emails profile) 0 = Some entry
    /\ email_value entry = claim payload "email"
    /\ verified entry = VUndefined
    /\ verified entry <> VBool false.
Proof.
  intros Hp He Ha.
  destruct (parseProfile_truthy payload Hp)
    as (profile & Hprof & _ & _ & _ & _ & Hemails & _).
  rewrite He, (absent_claim _ _ Ha) in Hemails.
  exists profile, {| email_value := claim payload "email";
                     verified := VUndefined |}.
  rewrite Hemails. cbn. repeat split; [exact Hprof | discriminate].
Qed.

Lemma parseProfile_verified_undefined_witness :
  exists profile entry,
    parseProfile Samples.unverified_payload = Normal profile
    /\ nth_error (emails profile) 0 = Some entry
    /\ email_value entry = VStr "bob@example.org"
    /\ verified entry = VUndefined
    /\ verified entry <> VBool false.
Proof.
  exact (parseProfile_verified_undefined Samples.unverified_payload
           eq_refl eq_refl eq_refl).
Defined.

(** * Further properties of the code *)

(** ** The profile mapper on any payload *)

(** The claims that [parseProfile] reads. *)
Definition profile_claims : list string :=
  ["sub"; "name"; "family_name"; "given_name"; "email"; "email_verified";
   "picture"].

Definition nullish (v : value) : bool :=
  match v with
  | VUndefined | VNull => true
  | _ => false
  end.




(** X2. For every verified payload the profile has one photo, holding
    the [picture] claim, when that claim is truthy, and no photo when it
    is absent or falsy. *)
Theorem parseProfile_photos payload :
  truthy payload = true ->
  exists profile,
    parseProfile payload = Normal profile
    /\ (truthy (claim payload "picture") = true ->
        photos profile = [ {| photo_value := claim payload "picture" |} ])
    /\ (truthy (claim payload "picture") = false -> photos profile = [])
    /\ (absent payload "picture" -> photos profile = []).
Proof.
  intros Hp.
  destruct (parseProfile_truthy payload Hp)
    as (profile & Hprof & _ & _ & _ & _ & _ & Hphotos & _).
  exists profile. split; [exact Hprof|]. rewrite Hphotos. repeat split.
  - now intros ->.
  - now intros ->.
  - intros Ha. now rewrite (absent_claim _ _ Ha).
Qed.

Lemma parseProfile_photos_witness :
  exists profile,
    parseProfile Samples.full_payload = Normal profile
    /\ photos profile =
       [ {| photo_value := VStr "https://example.org/ada.png" |} ].
Proof.
  destruct (parseProfile_photos Samples.full_payload eq_refl)
    as (profile & Hprof & Hone & _).
  exists profile. split; [exact Hprof|]. exact (Hone eq_refl).
Defined.

(** X3. For every verified payload [displayName] is the [name] claim
    when that claim is truthy and the empty string otherwise: it is
    never [undefined] or [null]. *)
Theorem parseProfile_displayName payload :
  truthy payload = true ->
  exists profile,
    parseProfile payload = Normal profile
    /\ (truthy (claim payload "name") = true ->
        displayName profile = claim payload "name")
    /\ (truthy (claim payload "name") = false ->
        displayName profile = VStr "")
    /\ nullish (displayName profile) = false.
Proof.
  intros Hp.
  destruct (parseProfile_truthy payload Hp)
    as (profile & Hprof & _ & _ & Hdisplay & _).
  exists profile. split; [exact Hprof|]. rewrite Hdisplay. unfold or_else.
  destruct (truthy (claim payload "name")) eqn:Hn; repeat split;
    try discriminate.
  destruct (claim payload "name"); try discriminate; reflexivity.
Qed.

Lemma parseProfile_displayName_witness :
  exists profile,
    parseProfile Samples.unverified_payload = Normal profile
    /\ displayName profile = VStr "".
Proof.
  destruct (parseProfile_displayName Samples.unverified_payload eq_refl)
    as (profile & Hprof & _ & Hempty & _).
  exists profile. split; [exact Hprof|]. exact (Hempty eq_refl).
Defined.

(** X4. The mapper does not validate the subject: [id] is the [sub]
    claim as it is, [undefined] when the claim is absent, and the
    payload is kept unchanged under [_json], with the provider
    ['google']. *)
Theorem parseProfile_subject payload :
  truthy payload = true ->
  exists profile,
    parseProfile payload = Normal profile
    /\ id profile = claim payload "sub"
    /\ (absent payload "sub" -> id profile = VUndefined)
    /\ _json profile = payload
    /\ provider profile = "google".
Proof.
  intros Hp.
  destruct (parseProfile_truthy payload Hp)
    as (profile & Hprof & Hprov & Hid & _ & _ & _ & _ & Hjson).
  exists profile. repeat split; try assumption.
  intros Ha. now rewrite Hid, (absent_claim _ _ Ha).
Qed.

Lemma parseProfile_subject_witness :
  exists profile,
    parseProfile (VObj [("email", VStr "eve@example.org")]) = Normal profile
    /\ id profile = VUndefined.
Proof.
  destruct (parseProfile_subject (VObj [("email", VStr "eve@example.org")])
              eq_refl) as (profile & Hprof & _ & Hid & _).
  exists profile. split; [exact Hprof|]. exact (Hid eq_refl).
Defined.

(** X5. For every verified payload the profile has at most one email
    entry and at most one photo, and every entry it has holds a truthy
    value. *)
Theorem parseProfile_at_most_one payload :
  truthy payload = true ->
  exists profile,
    parseProfile payload = Normal profile
    /\ length (emails profile) <= 1
    /\ length (photos profile) <= 1
    /\ (forall e, In e (emails profile) -> truthy (email_value e) = true)
    /\ (forall p, In p (photos profile) -> truthy (photo_value p) = true).
Proof.
  intros Hp.
  destruct (parseProfile_truthy payload Hp)
    as (profile & Hprof & _ & _ & _ & _ & Hemails & Hphotos & _).
  exists profile. split; [exact Hprof|]. rewrite Hemails, Hphotos.
  destruct (truthy (claim payload "email")) eqn:He;
    destruct (truthy (claim payload "picture")) eqn:Hc;
    simpl; repeat split; try lia;
    intros x Hx; destruct Hx as [<- | []]; assumption.
Qed.

Lemma parseProfile_at_most_one_witness :
  exists profile,
    parseProfile Samples.full_payload = Normal profile
    /\ length (emails profile) <= 1.
Proof.
  destruct (parseProfile_at_most_one Samples.full_payload eq_refl)
    as (profile & Hprof & Hlen & _).
  exists profile. split; [exact Hprof | exact Hlen].
Defined.

(** X6. The profile depends on the payload through seven claims only:
    two verified payloads that agree on [sub], [name], [family_name],
    [given_name], [email], [email_verified] and [picture] give profiles
    that differ at most in [_json]. *)
Theorem parseProfile_reads_seven_claims p1 p2 :
  truthy p1 = true ->
  truthy p2 = true ->
  (forall k, In k profile_claims -> claim p1 k = claim p2 k) ->
  exists q1 q2,
    parseProfile p1 = Normal q1
    /\ parseProfile p2 = Normal q2
    /\ provider q1 = provider q2
    /\ id q1 = id q2
    /\ displayName q1 = displayName q2
    /\ name q1 = name q2
    /\ emails q1 = emails q2
    /\ photos q1 = photos q2.
Proof.
  intros H1 H2 Hagree.
  destruct (parseProfile_truthy p1 H1)
    as (q1 & Hq1 & Hprov1 & Hid1 & Hd1 & Hn1 & He1 & Hph1 & _).
  destruct (parseProfile_truthy p2 H2)
    as (q2 & Hq2 & Hprov2 & Hid2 & Hd2 & Hn2 & He2 & Hph2 & _).
  exists q1, q2.
  rewrite Hprov1, Hprov2, Hid1, Hid2, Hd1, Hd2, Hn1, Hn2, He1, He2, Hph1, Hph2.
  rewrite !(Hagree _) by (unfold profile_claims; simpl; tauto).
  repeat split; assumption.
Qed.

Lemma parseProfile_reads_seven_claims_witness :
  exists q1 q2,
    parseProfile Samples.unverified_payload = Normal q1
    /\ parseProfile
         (VObj [("hd", VStr "example.org"); ("sub", VStr "1002");
                ("email", VStr "bob@example.org")]) = Normal q2
    /\ provider q1 = provider q2
    /\ id q1 = id q2
    /\ displayName q1 = displayName q2
    /\ name q1 = name q2
    /\ emails q1 = emails q2
    /\ photos q1 = photos q2.
Proof.
  apply (parseProfile_reads_seven_claims Samples.unverified_payload
           (VObj [("hd", VStr "example.org"); ("sub", VStr "1002");
                  ("email", VStr "bob@example.org")]) eq_refl eq_refl).
  intros k Hk. simpl in Hk.
  repeat (destruct Hk as [<- | Hk]; [reflexivity|]). destruct Hk.
Defined.

(** ** The token locator on plain requests *)

Lemma guarded_get_plain c field :
  guarded_get (Normal c) field =
  Normal (if truthy c then claim c field else c).
Proof.
  unfold guarded_get. cbn [cbind]. destruct (truthy c) eqn:Hc; [|reflexivity].
  now apply get_truthy.
Qed.

(** X7. On a request whose [body], [query] and [headers] are data
    properties, [lookup] never throws, whatever they hold: a container
    that is [undefined], [null] or another falsy value is skipped by its
    guard instead of being indexed. *)
Theorem lookup_plain_returns req field b q h :
  body req = Normal b ->
  query req = Normal q ->
  headers req = Normal h ->
  exists v, lookup req field = Normal v.
Proof.
  intros Hb Hq Hh. unfold lookup, lazy_or.
  rewrite Hb, Hq, Hh, !guarded_get_plain. cbn [cbind].
  repeat match goal with
         | |- context [if truthy ?x then Normal _ else _] =>
             destruct (truthy x)
         end; eexists; reflexivity.
Qed.

Lemma lookup_plain_returns_witness :
  exists v,
    lookup {| body := Normal VUndefined; query := Normal VNull;
              headers := Normal (VObj []) |} "id_token" = Normal v.
Proof.
  exact (lookup_plain_returns
           {| body := Normal VUndefined; query := Normal VNull;
              headers := Normal (VObj []) |} "id_token"
           VUndefined VNull (VObj []) eq_refl eq_refl eq_refl).
Defined.

Lemma guarded_get_truthy container field v :
  guarded_get container field = Normal v ->
  truthy v = true ->
  exists c, container = Normal c /\ truthy c = true /\ get c field = Normal v.
Proof.
  unfold guarded_get. destruct container as [c|e]; cbn [cbind];
    [|discriminate].
  destruct (truthy c) eqn:Hc; intros H Hv.
  - now exists c.
  - injection H as <-. congruence.
Qed.

Lemma lazy_or_truthy a b v :
  lazy_or a b = Normal v -> truthy v = true -> a = Normal v \/ b = Normal v.
Proof.
  unfold lazy_or. destruct a as [x|e]; cbn [cbind]; [|discriminate].
  destruct (truthy x); intros H Hv; [left | right]; assumption.
Qed.

(** X8. A truthy result of [lookup] is the [field] property of the
    body, of the query or of the headers of the request: the locator
    returns no token of its own. *)
Theorem lookup_truthy_from_request req field v :
  lookup req field = Normal v ->
  truthy v = true ->
  exists c,
    (body req = Normal c \/ query req = Normal c \/ headers req = Normal c)
    /\ truthy c = true
    /\ get c field = Normal v.
Proof.
  unfold lookup. intros H Hv.
  destruct (lazy_or_truthy _ _ _ H Hv) as [Hb | H'];
    [| destruct (lazy_or_truthy _ _ _ H' Hv) as [Hq | Hh]].
  - destruct (guarded_get_truthy _ _ _ Hb Hv) as (c & Hc & Ht & Hg).
    exists c. auto.
  - destruct (guarded_get_truthy _ _ _ Hq Hv) as (c & Hc & Ht & Hg).
    exists c. auto.
  - destruct (guarded_get_truthy _ _ _ Hh Hv) as (c & Hc & Ht & Hg).
    exists c. auto.
Qed.

Lemma lookup_truthy_from_request_witness :
  exists c,
    (body Samples.plain_request = Normal c
     \/ query Samples.plain_request = Normal c
     \/ headers Samples.plain_request = Normal c)
    /\ truthy c = true
    /\ get c "id_token" = Normal (VStr "eyJ.body").
Proof.
  exact (lookup_truthy_from_request Samples.plain_request "id_token"
           (VStr "eyJ.body") eq_refl eq_refl).
Defined.

(** ** Whole runs of [authenticate] *)

(** The call [c] of the completion callback is made by the verification
    function of [self], called by [authenticate] on [req] after the
    engine has accepted the token of the request. *)
Definition verified_call (self : GoogleOIDCTokenStrategy) (req : Request)
    (c : done_call) : Prop :=
  exists idToken ticket profile,
    lookup req "id_token" = Normal idToken
    /\ verifyIdToken (client self) idToken (clientId self) = Resolves ticket
    /\ truthy (getPayload ticket) = true
    /\ parseProfile (getPayload ticket) = Normal profile
    /\ In c (during (_verify self (verify_args self req profile))
             ++ afterwards (_verify self (verify_args self req profile))).

(** [profile] is the profile that [authenticate] passes to the
    verification function on [req], the engine having accepted the
    token. *)
Definition verified_profile (self : GoogleOIDCTokenStrategy) (req : Request)
    (profile : Profile) : Prop :=
  exists idToken ticket,
    lookup req "id_token" = Normal idToken
    /\ verifyIdToken (client self) idToken (clientId self) = Resolves ticket
    /\ truthy (getPayload ticket) = true
    /\ parseProfile (getPayload ticket) = Normal profile.

Lemma outcome_of_Success c user info :
  outcome_of c = Success user info ->
  truthy (dc_error c) = false /\ truthy user = true
  /\ dc_user c = user /\ dc_info c = info.
Proof.
  unfold outcome_of. destruct (truthy (dc_error c)); [discriminate|].
  destruct (truthy (dc_user c)) eqn:Hu; [|discriminate].
  intros H. injection H as <- <-. auto.
Qed.

Lemma outcome_of_Fail c info :
  outcome_of c = Fail info ->
  truthy (dc_error c) = false /\ truthy (dc_user c) = false
  /\ dc_info c = info.
Proof.
  unfold outcome_of. destruct (truthy (dc_error c)); [discriminate|].
  destruct (truthy (dc_user c)) eqn:Hu; [discriminate|].
  intros H. injection H as <-. auto.
Qed.

(** Every run is of one of four kinds. *)
Lemma run_cases self req :
  (exists e, lookup req "id_token" = Throw e /\ run self req = (Rejected e, []))
  \/ (exists idToken,
        lookup req "id_token" = Normal idToken
        /\ verifyIdToken (client self) idToken (clientId self) = Pending
        /\ run self req = (Unsettled, []))
  \/ (exists idToken cause,
        lookup req "id_token" = Normal idToken
        /\ engine_failure
             (verifyIdToken (client self) idToken (clientId self)) cause
        /\ run self req = (Fulfilled, [Error_ cause]))
  \/ (exists idToken ticket profile,
        lookup req "id_token" = Normal idToken
        /\ verifyIdToken (client self) idToken (clientId self) = Resolves ticket
        /\ truthy (getPayload ticket) = true
        /\ parseProfile (getPayload ticket) = Normal profile
        /\ run self req =
           (Fulfilled,
            Verify (verify_args self req profile)
            :: map outcome_of
                 (during (_verify self (verify_args self req profile)))
            ++ caught (ending (_verify self (verify_args self req profile)))
            ++ map outcome_of
                 (afterwards (_verify self (verify_args self req profile))))).
Proof.
  destruct (lookup req "id_token") as [idToken|e] eqn:Hl.
  - right.
    destruct (verifyIdToken (client self) idToken (clientId self))
      as [ticket|cause|] eqn:He.
    + destruct (truthy (getPayload ticket)) eqn:Hp.
      * destruct (parseProfile_total _ Hp) as [profile Hprof].
        right. right. exists idToken, ticket, profile.
        repeat split; try assumption.
        exact (run_verified self req idToken Hl ticket profile He Hp Hprof).
      * right. left. exists idToken, (VError "No payload returned").
        split; [reflexivity|]. split; [rewrite ?He; now constructor|].
        apply (run_engine_failure self req idToken Hl).
        rewrite ?He. now constructor.
    + right. left. exists idToken, cause.
      split; [reflexivity|]. split; [rewrite ?He; constructor|].
      apply (run_engine_failure self req idToken Hl). rewrite ?He. constructor.
    + left. exists idToken. split; [reflexivity|]. split; [exact He|].
      exact (run_engine_pending self req idToken Hl He).
  - left. exists e. split; [reflexivity|]. now apply run_lookup_throws.
Qed.

(** Further sample inputs. *)
Module Scenarios.

(** An engine whose promise never settles. *)
Definition silent_engine : OAuth2Client :=
  {| verifyIdToken := fun _ _ => Pending |}.

(** [(accessToken, refreshToken, profile, cb) => {}] *)
Definition silent_verify : VerifyFunction :=
  fun _ => {| during := []; ending := Returns; afterwards := [] |}.

(** A verification function that rejects the user at once and reports
    an error in a later turn. *)
Definition reject_then_error : VerifyFunction :=
  fun _ =>
    {| during := [ {| dc_error := VNull; dc_user := VBool false;
                      dc_info := VObj [("message", VStr "no such user")] |} ];
       ending := Returns;
       afterwards := [ {| dc_error := VError "database closed";
                          dc_user := VUndefined;
                          dc_info := VUndefined |} ] |}.

(** A request that holds forged claims beside its token. *)
Definition forging_request : Request :=
  {| body := Normal (VObj [("id_token", VStr "eyJ.body");
                           ("sub", VStr "1");
                           ("email", VStr "root@example.org")]);
     query := Normal (VObj []);
     headers := Normal (VObj []) |}.

Definition throwing_strategy : GoogleOIDCTokenStrategy :=
  Samples.strategy (Samples.accepting Samples.full_payload)
    Samples.accept_then_throw None.

End Scenarios.

(** X9. In a run whose token the engine accepts, the handler
    invocations are, in order: one per call of the completion callback
    made during the verification function, then Error if the
    verification function throws, then one per call made later.  A
    verification function that returns without ever calling the
    callback leaves the run without any outcome. *)
Theorem authenticate_outcomes_in_order self req idToken ticket profile :
  lookup req "id_token" = Normal idToken ->
  verifyIdToken (client self) idToken (clientId self) = Resolves ticket ->
  truthy (getPayload ticket) = true ->
  parseProfile (getPayload ticket) = Normal profile ->
  let r := _verify self (verify_args self req profile) in
  outcomes (snd (run self req)) =
  map outcome_of (during r) ++ caught (ending r)
  ++ map outcome_of (afterwards r)
  /\ (during r = [] -> ending r = Returns -> afterwards r = [] ->
      outcomes (snd (run self req)) = []).
Proof.
  intros Hl He Hp Hprof r.
  rewrite (run_verified self req idToken Hl ticket profile He Hp Hprof).
  cbv zeta. fold r. cbn [snd]. autorewrite with traces.
  split; [reflexivity|]. now intros -> -> ->.
Qed.

Lemma authenticate_outcomes_in_order_witness :
  outcomes
    (snd (run (Samples.strategy (Samples.accepting Samples.full_payload)
                 Scenarios.reject_then_error None)
              Samples.plain_request))
  = [Fail (VObj [("message", VStr "no such user")]);
     Error_ (VError "database closed")].
Proof.
  destruct (parseProfile_total Samples.full_payload eq_refl)
    as [profile Hprof].
  exact (proj1 (authenticate_outcomes_in_order
                  (Samples.strategy (Samples.accepting Samples.full_payload)
                     Scenarios.reject_then_error None)
                  Samples.plain_request (VStr "eyJ.body")
                  {| getPayload := Samples.full_payload |} profile
                  eq_refl eq_refl eq_refl Hprof)).
Defined.

(** X10. Success and Fail are invoked only on behalf of the
    verification function: Success(user, info) for a call of the
    completion callback with a falsy error and the truthy [user], Fail
    for one with a falsy error and a falsy user, each made after the
    engine accepted the token.  [authenticate] reports neither by
    itself. *)
Theorem success_and_fail_come_from_done self req :
  (forall user info,
      In (Success user info) (snd (run self req)) ->
      truthy user = true
      /\ exists c, verified_call self req c
                   /\ truthy (dc_error c) = false
                   /\ dc_user c = user /\ dc_info c = info)
  /\ (forall info,
      In (Fail info) (snd (run self req)) ->
      exists c, verified_call self req c
                /\ truthy (dc_error c) = false
                /\ truthy (dc_user c) = false /\ dc_info c = info).
Proof.
  assert (Hin : forall h, In h (snd (run self req)) ->
                (forall e, h <> Error_ e) -> (forall a, h <> Verify a) ->
                exists c, verified_call self req c /\ outcome_of c = h).
  { intros h Hh Hne Hnv.
    destruct (run_cases self req)
      as [(e & _ & Hr) | [(t & _ & _ & Hr) | [(t & cause & _ & _ & Hr)
         | (t & ticket & profile & Hl & He & Hp & Hprof & Hr)]]];
      rewrite Hr in Hh; cbn [snd] in Hh.
    - destruct Hh.
    - destruct Hh.
    - destruct Hh as [<- | []]. now elim (Hne cause).
    - destruct Hh as [<- | Hh]; [now elim (Hnv (verify_args self req profile))|].
      assert (Hc : exists c,
                 In c (during (_verify self (verify_args self req profile))
                       ++ afterwards (_verify self (verify_args self req profile)))
                 /\ outcome_of c = h).
      { apply in_app_or in Hh. destruct Hh as [Hh | Hh].
        - apply in_map_iff in Hh. destruct Hh as (c & Hc & Hin).
          exists c. split; [apply in_or_app; now left | exact Hc].
        - apply in_app_or in Hh. destruct Hh as [Hh | Hh].
          + destruct (ending (_verify self (verify_args self req profile)));
              simpl in Hh; [destruct Hh|].
            destruct Hh as [<- | []]. now elim (Hne e).
          + apply in_map_iff in Hh. destruct Hh as (c & Hc & Hin).
            exists c. split; [apply in_or_app; now right | exact Hc]. }
      destruct Hc as (c & Hc & Ho). exists c. split; [|exact Ho].
      exists t, ticket, profile. auto. }
  split.
  - intros user info H.
    destruct (Hin _ H) as (c & Hv & Ho); try discriminate.
    destruct (outcome_of_Success _ _ _ Ho) as (He & Hu & Hcu & Hci).
    split; [exact Hu|]. exists c. auto.
  - intros info H.
    destruct (Hin _ H) as (c & Hv & Ho); try discriminate.
    destruct (outcome_of_Fail _ _ Ho) as (He & Hu & Hci).
    exists c. auto.
Qed.

Lemma success_and_fail_come_from_done_witness :
  truthy Samples.user = true
  /\ exists c,
       verified_call
         (Samples.strategy (Samples.accepting Samples.full_payload)
            Samples.accept_user None)
         Samples.plain_request c
       /\ truthy (dc_error c) = false
       /\ dc_user c = Samples.user /\ dc_info c = VUndefined.
Proof.
  exact (proj1 (success_and_fail_come_from_done
                  (Samples.strategy
                     (Samples.accepting Samples.full_payload)
                     Samples.accept_user None)
                  Samples.plain_request)
           Samples.user VUndefined
           (or_intror (or_introl eq_refl))).
Defined.

(** X11. The promise of [authenticate] rejects exactly when the token
    lookup throws, and then with the exception of the lookup; it stays
    unsettled exactly when the lookup returns and the promise of the
    engine never settles; in both cases no handler is invoked and the
    verification function is not called.  In every other run it is
    fulfilled, also when the engine rejects or the verification
    function throws. *)
Theorem authenticate_settlement self req :
  (forall e, fst (run self req) = Rejected e <->
             lookup req "id_token" = Throw e)
  /\ (fst (run self req) = Unsettled <->
      exists idToken,
        lookup req "id_token" = Normal idToken
        /\ verifyIdToken (client self) idToken (clientId self) = Pending)
  /\ (fst (run self req) <> Fulfilled -> snd (run self req) = []).
Proof.
  destruct (run_cases self req)
    as [(e & Hl & Hr) | [(t & Hl & He & Hr) | [(t & cause & Hl & Hf & Hr)
       | (t & ticket & profile & Hl & He & Hp & Hprof & Hr)]]];
    rewrite Hr; cbn [fst snd]; rewrite Hl.
  - split; [|split].
    + intros e'. split; intros H; injection H as <-; reflexivity.
    + split; [discriminate|]. intros (t & H & _). discriminate H.
    + reflexivity.
  - split; [|split].
    + intros e. split; discriminate.
    + split; [|reflexivity]. intros _. exists t. now split.
    + reflexivity.
  - split; [|split].
    + intros e. split; discriminate.
    + split; [discriminate|]. intros (t' & H & He). injection H as <-.
      rewrite He in Hf. inversion Hf.
    + intros H. now elim H.
  - split; [|split].
    + intros e. split; discriminate.
    + split; [discriminate|]. intros (t' & H & He'). injection H as <-.
      congruence.
    + intros H. now elim H.
Qed.

Lemma authenticate_settlement_witness :
  fst (run (Samples.strategy Scenarios.silent_engine Samples.accept_user None)
           Samples.plain_request) = Unsettled.
Proof.
  apply (proj1 (proj2 (authenticate_settlement
                         (Samples.strategy Scenarios.silent_engine
                            Samples.accept_user None)
                         Samples.plain_request))).
  exists (VStr "eyJ.body"). split; reflexivity.
Defined.

(** X12. The constructor keeps the option [passReqToCallback] as it is
    given and [authenticate] tests it for truthiness: after a successful
    verification the request is the first argument of the verification
    function exactly when the option is present with a truthy value,
    boolean or not. *)
Theorem verify_receives_request_iff_truthy
    new_OAuth2Client options verify req idToken ticket :
  let self := new_GoogleOIDCTokenStrategy new_OAuth2Client options verify in
  lookup req "id_token" = Normal idToken ->
  verifyIdToken (client self) idToken (clientId self) = Resolves ticket ->
  truthy (getPayload ticket) = true ->
  exists profile,
    parseProfile (getPayload ticket) = Normal profile
    /\ ((exists v, passReqToCallback options = Some v /\ truthy v = true) ->
        verify_calls (snd (run self req)) =
        [[AReq req; AVal accessToken; AVal refreshToken;
          AProfile profile; ADone]])
    /\ (~ (exists v, passReqToCallback options = Some v /\ truthy v = true) ->
        verify_calls (snd (run self req)) =
        [[AVal accessToken; AVal refreshToken; AProfile profile; ADone]]).
Proof.
  intros self Hl He Hp.
  destruct (parseProfile_total _ Hp) as [profile Hprof].
  exists profile. split; [exact Hprof|].
  rewrite (run_verified self req idToken Hl ticket profile He Hp Hprof).
  cbv zeta. cbn [snd]. autorewrite with traces.
  unfold verify_args, self.
  cbn [_passReqToCallback new_GoogleOIDCTokenStrategy].
  split.
  - intros (v & -> & ->). reflexivity.
  - intros Hno. destruct (passReqToCallback options) as [v|]; [|reflexivity].
    destruct (truthy v) eqn:Hv; [|reflexivity].
    elim Hno. now exists v.
Qed.

Lemma verify_receives_request_iff_truthy_witness :
  exists profile,
    parseProfile Samples.full_payload = Normal profile
    /\ verify_calls
         (snd (run (Samples.strategy (Samples.accepting Samples.full_payload)
                      Samples.accept_user (Some (VStr "false")))
                   Samples.plain_request))
       = [[AReq Samples.plain_request; AVal accessToken; AVal refreshToken;
           AProfile profile; ADone]].
Proof.
  destruct (verify_receives_request_iff_truthy
              (fun _ => Samples.accepting Samples.full_payload)
              {| clientID := "123456789";
                 passReqToCallback := Some (VStr "false") |}
              Samples.accept_user Samples.plain_request (VStr "eyJ.body")
              {| getPayload := Samples.full_payload |}
              eq_refl eq_refl eq_refl) as (profile & Hprof & Hwith & _).
  exists profile. split; [exact Hprof|].
  apply Hwith. exists (VStr "false"). split; reflexivity.
Defined.

(** X13. The profile handed to the verification function is the
    profile of the payload the engine returned for the token: two
    requests that carry the same token get the same profile, whatever
    else they hold. *)
Theorem profile_from_engine_only self req1 req2 idToken ticket :
  lookup req1 "id_token" = Normal idToken ->
  lookup req2 "id_token" = Normal idToken ->
  verifyIdToken (client self) idToken (clientId self) = Resolves ticket ->
  truthy (getPayload ticket) = true ->
  exists profile,
    parseProfile (getPayload ticket) = Normal profile
    /\ verify_calls (snd (run self req1)) = [verify_args self req1 profile]
    /\ verify_calls (snd (run self req2)) = [verify_args self req2 profile].
Proof.
  intros Hl1 Hl2 He Hp.
  destruct (parseProfile_total _ Hp) as [profile Hprof].
  exists profile. split; [exact Hprof|].
  rewrite (run_verified self req1 idToken Hl1 ticket profile He Hp Hprof).
  rewrite (run_verified self req2 idToken Hl2 ticket profile He Hp Hprof).
  cbv zeta. cbn [snd]. autorewrite with traces. now split.
Qed.

Lemma profile_from_engine_only_witness :
  exists profile,
    parseProfile Samples.unverified_payload = Normal profile
    /\ verify_calls
         (snd (run (Samples.strategy
                      (Samples.accepting Samples.unverified_payload)
                      Samples.accept_user None)
                   Samples.plain_request))
       = [[AVal accessToken; AVal refreshToken; AProfile profile; ADone]]
    /\ verify_calls
         (snd (run (Samples.strategy
                      (Samples.accepting Samples.unverified_payload)
                      Samples.accept_user None)
                   Scenarios.forging_request))
       = [[AVal accessToken; AVal refreshToken; AProfile profile; ADone]].
Proof.
  exact (profile_from_engine_only
           (Samples.strategy (Samples.accepting Samples.unverified_payload)
              Samples.accept_user None)
           Samples.plain_request Scenarios.forging_request (VStr "eyJ.body")
           {| getPayload := Samples.unverified_payload |}
           eq_refl eq_refl eq_refl eq_refl).
Defined.

(** X14. The Error handler is invoked in three ways only: with the
    cause of an engine failure, with the exception the verification
    function throws, or with the truthy error of a call of the
    completion callback. *)
Theorem error_comes_from self req e :
  In (Error_ e) (snd (run self req)) ->
  (exists idToken,
      lookup req "id_token" = Normal idToken
      /\ engine_failure
           (verifyIdToken (client self) idToken (clientId self)) e)
  \/ (exists profile,
        verified_profile self req profile
        /\ ending (_verify self (verify_args self req profile)) = Throws e)
  \/ (exists c, verified_call self req c
                /\ dc_error c = e /\ truthy e = true).
Proof.
  intros Hh.
  destruct (run_cases self req)
    as [(x & _ & Hr) | [(t & _ & _ & Hr) | [(t & cause & Hl & Hf & Hr)
       | (t & ticket & profile & Hl & He & Hp & Hprof & Hr)]]];
    rewrite Hr in Hh; cbn [snd] in Hh.
  - destruct Hh.
  - destruct Hh.
  - destruct Hh as [H | []]. injection H as <-. left. now exists t.
  - destruct Hh as [H | Hh]; [discriminate H|].
    assert (Hcall : forall c,
               In c (during (_verify self (verify_args self req profile))
                     ++ afterwards (_verify self (verify_args self req profile))) ->
               outcome_of c = Error_ e ->
               exists c, verified_call self req c
                         /\ dc_error c = e /\ truthy e = true).
    { intros c Hc Ho. exists c. split; [exists t, ticket, profile; auto|].
      unfold outcome_of in Ho.
      destruct (truthy (dc_error c)) eqn:Hte.
      - injection Ho as <-. auto.
      - destruct (truthy (dc_user c)); discriminate Ho. }
    apply in_app_or in Hh. destruct Hh as [Hh | Hh].
    + apply in_map_iff in Hh. destruct Hh as (c & Ho & Hc).
      right. right. apply (Hcall c); [apply in_or_app; now left | exact Ho].
    + apply in_app_or in Hh. destruct Hh as [Hh | Hh].
      * right. left. exists profile. split; [now exists t, ticket|].
        destruct (ending (_verify self (verify_args self req profile)));
          simpl in Hh; [destruct Hh|].
        destruct Hh as [H | []]. now injection H as <-.
      * apply in_map_iff in Hh. destruct Hh as (c & Ho & Hc).
        right. right. apply (Hcall c); [apply in_or_app; now right | exact Ho].
Qed.

Lemma error_comes_from_witness :
  (exists idToken,
      lookup Samples.plain_request "id_token" = Normal idToken
      /\ engine_failure
           (verifyIdToken (client Scenarios.throwing_strategy) idToken
              (clientId Scenarios.throwing_strategy))
           (VError "audit log unavailable"))
  \/ (exists profile,
        verified_profile Scenarios.throwing_strategy Samples.plain_request
          profile
        /\ ending (_verify Scenarios.throwing_strategy
                     (verify_args Scenarios.throwing_strategy
                        Samples.plain_request profile))
           = Throws (VError "audit log unavailable"))
  \/ (exists c,
        verified_call Scenarios.throwing_strategy Samples.plain_request c
        /\ dc_error c = VError "audit log unavailable"
        /\ truthy (VError "audit log unavailable") = true).
Proof.
  apply (error_comes_from Scenarios.throwing_strategy Samples.plain_request
           (VError "audit log unavailable")).
  right. right. left. reflexivity.
Defined.

(** X15. In every run the verification function is called at most
    once, and its call, when there is one, is the first event of the
    run: no handler is invoked before it. *)
Theorem verify_called_at_most_once self req :
  length (verify_calls (snd (run self req))) <= 1
  /\ (forall args,
        In args (verify_calls (snd (run self req))) ->
        exists rest, snd (run self req) = Verify args :: rest
                     /\ verify_calls rest = []).
Proof.
  destruct (run_cases self req)
    as [(x & _ & Hr) | [(t & _ & _ & Hr) | [(t & cause & Hl & Hf & Hr)
       | (t & ticket & profile & Hl & He & Hp & Hprof & Hr)]]];
    rewrite Hr; cbn [snd]; autorewrite with traces; simpl;
    (split; [lia|]); intros args Hin; try (now destruct Hin).
  destruct Hin as [<- | []]. eexists. split; [reflexivity|].
  now autorewrite with traces.
Qed.
